(** * The napajs node binding: [ZoneWrap] (src/modules/napajs/node/zone-wrap.cpp)

    A shallow embedding of the zone wrapper that node.js loads: the
    constructor callback, [broadcast], [broadcastSync], [execute],
    [executeSync] and the two static helpers [CreateResponseObject] and
    [CreateRequestAndExecute].

    The C++ code runs against three collaborators whose code is not in
    zone-wrap.cpp: the V8 API (values, property access, exceptions, [v8::JSON]), the
    napa zone scheduler ([napa::ZoneProxy]) and the napa helper headers
    ([napa/v8-helpers.h], [node-async-handler.h], [zone-wrap.h]).  V8 values
    are modelled by an inductive type with the conversions the code calls;
    the scheduler and the JSON parser are parameters; the helper headers are
    modelled under comments that say so. *)

From Stdlib Require Import ZArith NArith List String Ascii Bool Lia.
From Stdlib Require Import DecimalString.
Import ListNotations.
Local Open Scope string_scope.
Set Warnings "-register-all".

(** ** V8 values *)

Module V8.

(** [v8::Value].  Numbers are the integer-valued ones (a [Uint32] made by
    [v8::Uint32::NewFromUnsigned], an integer literal read by the JSON
    parser); a function carries the text its string conversion yields; an
    object is the ordered list of its own data properties. *)
Inductive Value : Type :=
| VUndefined
| VNull
| VBool (b : bool)
| VNumber (z : Z)
| VString (s : string)
| VArray (elems : list Value)
| VObject (props : list (string * Value))
| VFunction (id : nat) (text : string).

Definition Object := list (string * Value).

Definition IsString (v : Value) : bool :=
  match v with VString _ => true | _ => false end.

Definition IsFunction (v : Value) : bool :=
  match v with VFunction _ _ => true | _ => false end.

(** [v8::Value::IsObject]: arrays and functions are objects too. *)
Definition IsObject (v : Value) : bool :=
  match v with
  | VObject _ | VArray _ | VFunction _ _ => true
  | _ => false
  end.

(** Decimal text of an integer, as the number-to-string conversion prints
    it. *)
Definition decimal (z : Z) : string :=
  NilZero.string_of_int (Z.to_int z).

Definition join (sep : string) (l : list string) : string :=
  match l with
  | [] => ""
  | x :: rest => fold_left (fun acc y => acc ++ sep ++ y) rest x
  end.

(** [v8::Value::ToString] followed by reading the characters out
    ([v8::String::Utf8Value]).  [undefined] and [null] inside an array
    print as nothing, everywhere else by name. *)
Fixpoint ToString (v : Value) : string :=
  match v with
  | VUndefined => "undefined"
  | VNull => "null"
  | VBool true => "true"
  | VBool false => "false"
  | VNumber z => decimal z
  | VString s => s
  | VArray elems =>
      join ","
        (map (fun e => match e with
                       | VUndefined | VNull => ""
                       | _ => ToString e
                       end) elems)
  | VObject _ => "[object Object]"
  | VFunction _ text => text
  end.

Definition two32 : Z := 2 ^ 32.

(** [v8::Uint32::NewFromUnsigned(isolate, n)]: the parameter is a
    [uint32_t], so the argument wraps modulo 2^32 on the way in. *)
Definition Uint32_NewFromUnsigned (n : N) : Value :=
  VNumber (Z.of_N n mod two32).

(** [v8::Value::Uint32Value]: the [ToUint32] conversion.  [undefined]
    becomes NaN and then 0.  The numeric reading of a string (and of the
    primitive an object converts to) is V8's number grammar; it is the
    parameter [numeric]. *)
Definition Uint32Value (numeric : string -> Z) (v : Value) : N :=
  match v with
  | VUndefined => 0%N
  | VNull => 0%N
  | VBool b => if b then 1%N else 0%N
  | VNumber z => Z.to_N (z mod two32)
  | other => Z.to_N (numeric (ToString other) mod two32)
  end.

(** [v8::Object::Get(context, key)] gives a [MaybeLocal]: empty only when
    the lookup throws.  On an object of data properties the lookup cannot
    throw; a key the object does not have reads as [undefined]. *)
Fixpoint lookup (key : string) (props : Object) : Value :=
  match props with
  | [] => VUndefined
  | (k, v) :: rest => if String.eqb k key then v else lookup key rest
  end.

Definition Get (obj : Object) (key : string) : option Value :=
  Some (lookup key obj).

Definition has_key (key : string) (props : Object) : bool :=
  existsb (fun kv => String.eqb (fst kv) key) props.

(** [v8::Object::CreateDataProperty]: define the own property, replacing
    the value when the key is already there. *)
Fixpoint CreateDataProperty (obj : Object) (key : string) (v : Value)
  : Object :=
  match obj with
  | [] => [(key, v)]
  | (k, old) :: rest =>
      if String.eqb k key then (k, v) :: rest
      else (k, old) :: CreateDataProperty rest key v
  end.

(** [v8::Value::ToObject] on a value that passed [IsObject]: an array
    shows its elements under their indices, a function has no own
    enumerable property. *)
Fixpoint indexed (i : nat) (elems : list Value) : Object :=
  match elems with
  | [] => []
  | e :: rest => (decimal (Z.of_nat i), e) :: indexed (S i) rest
  end.

Definition ToObject (v : Value) : Object :=
  match v with
  | VObject props => props
  | VArray elems => indexed 0 elems
  | _ => []
  end.

End V8.

Import V8.

(** ** The napa types the binding exchanges with the scheduler *)

(** Modelled from the spec: [napa::ExecuteRequest] (napa.h is not among
    the sources).  A request starts with an empty module, no arguments and
    timeout 0, which means no timeout. *)
Record ExecuteRequest : Type := {
  module : string;
  function : string;
  arguments : list string;
  timeout : N
}.

Definition empty_request : ExecuteRequest :=
  {| module := ""; function := ""; arguments := []; timeout := 0 |}.

(** Modelled from the spec: [napa::ExecuteResponse]; [code] is a
    [NapaResponseCode], an unsigned integer. *)
Record ExecuteResponse : Type := {
  code : N;
  errorMessage : string;
  returnValue : string
}.

Definition NapaResponseCode := N.

(** [napa::ZoneProxy]: the handle on a zone of the scheduler. *)
Record ZoneProxy : Type := { zone_id : string }.

(** [ZoneWrap]: the native object behind the JavaScript zone object. *)
Record ZoneWrap : Type := { _zoneProxy : ZoneProxy }.

(** ** The state the binding runs in *)

(** The part of [v8::Isolate] the code touches: the exception that
    [ThrowException] or a failing V8 call leaves pending, and a record of
    the texts handed to [v8::JSON::Parse]. *)
Record Isolate : Type := {
  exception : option string;
  json_calls : list string
}.

Definition ThrowException (msg : string) (iso : Isolate) : Isolate :=
  {| exception := Some msg; json_calls := json_calls iso |}.

Inductive Thread : Type :=
| EmbeddingThread
| WorkerThread (n : nat).

(** Modelled from the spec: [NodeAsyncHandler<T>] (node-async-handler.h is
    not among the sources), the completion bridge of the spec: it holds the
    user callback and the conversion from the raw value to the callback's
    arguments. *)
Record NodeAsyncHandler (T : Type) : Type := {
  callback : Value;
  getArgs : T -> Isolate -> list Value * Isolate
}.
Arguments callback {T} _.
Arguments getArgs {T} _ _ _.

Definition NodeAsyncHandler_New {T : Type} (cb : Value)
    (convert : T -> Isolate -> list Value * Isolate) : NodeAsyncHandler T :=
  {| callback := cb; getArgs := convert |}.

(** A call into the scheduler.  The completion closure of an asynchronous
    call, [[handler](r) { handler->DispatchCallback(r); }], is recorded as
    the handler it captured. *)
Inductive ZoneCall : Type :=
| ZCreate (id config : string)
| ZGet (id : string)
| ZBroadcast (zone : ZoneProxy) (source : string)
    (onComplete : NodeAsyncHandler NapaResponseCode)
| ZBroadcastSync (zone : ZoneProxy) (source : string)
| ZExecute (zone : ZoneProxy) (request : ExecuteRequest)
    (onComplete : NodeAsyncHandler ExecuteResponse)
| ZExecuteSync (zone : ZoneProxy) (request : ExecuteRequest).

(** A task posted to the embedding thread, and a user callback that ran. *)
Record Task : Type := { task_callback : Value; task_args : list Value }.

Record Invocation : Type := {
  on_thread : Thread;
  invoked : Value;
  with_args : list Value
}.

Record World : Type := {
  isolate : Isolate;
  zone_calls : list ZoneCall;
  wrapped : list (Value * ZoneWrap);
  return_value : Value;
  task_queue : list Task;
  callback_log : list Invocation
}.

Definition fresh_isolate : Isolate := {| exception := None; json_calls := [] |}.

Definition fresh_world : World :=
  {| isolate := fresh_isolate; zone_calls := []; wrapped := [];
     return_value := VUndefined; task_queue := []; callback_log := [] |}.

Definition set_isolate (iso : Isolate) (w : World) : World :=
  {| isolate := iso; zone_calls := zone_calls w; wrapped := wrapped w;
     return_value := return_value w; task_queue := task_queue w;
     callback_log := callback_log w |}.

Definition record_zone_call (c : ZoneCall) (w : World) : World :=
  {| isolate := isolate w; zone_calls := zone_calls w ++ [c];
     wrapped := wrapped w; return_value := return_value w;
     task_queue := task_queue w; callback_log := callback_log w |}.

Definition Wrap (this : Value) (obj : ZoneWrap) (w : World) : World :=
  {| isolate := isolate w; zone_calls := zone_calls w;
     wrapped := (this, obj) :: wrapped w; return_value := return_value w;
     task_queue := task_queue w; callback_log := callback_log w |}.

Definition set_return_value (v : Value) (w : World) : World :=
  {| isolate := isolate w; zone_calls := zone_calls w; wrapped := wrapped w;
     return_value := v; task_queue := task_queue w;
     callback_log := callback_log w |}.

Definition set_task_queue (q : list Task) (w : World) : World :=
  {| isolate := isolate w; zone_calls := zone_calls w; wrapped := wrapped w;
     return_value := return_value w; task_queue := q;
     callback_log := callback_log w |}.

Definition record_invocation (i : Invocation) (w : World) : World :=
  {| isolate := isolate w; zone_calls := zone_calls w; wrapped := wrapped w;
     return_value := return_value w; task_queue := task_queue w;
     callback_log := callback_log w ++ [i] |}.

(** ** Callbacks as state transformers with early return

    A V8 callback is a [void] function over the world; [None] is the early
    [return] that [CHECK_ARG] and [JS_ASSERT] take after throwing. *)
Module Flow.

Definition M (A : Type) : Type := World -> option A * World.

Definition ret {A : Type} (a : A) : M A := fun w => (Some a, w).

Definition bind {A B : Type} (m : M A) (k : A -> M B) : M B :=
  fun w =>
    match m w with
    | (Some a, w') => k a w'
    | (None, w') => (None, w')
    end.

Definition modify (f : World -> World) : M unit := fun w => (Some tt, f w).

(** Modelled from the spec: the [CHECK_ARG] and [JS_ASSERT] macros of
    napa/v8-helpers.h, which is not among the sources: when the condition
    does not hold the error with the given message is thrown in the isolate
    and the enclosing function returns at once. *)
Definition JS_ASSERT (expression : bool) (message : string) : M unit :=
  fun w =>
    if expression then (Some tt, w)
    else (None, set_isolate (ThrowException message (isolate w)) w).

Definition CHECK_ARG := JS_ASSERT.

(** What the caller of a callback is left with. *)
Definition run {A : Type} (m : M A) (w : World) : World := snd (m w).

End Flow.

Import Flow.

Declare Scope flow_scope.
Delimit Scope flow_scope with flow.
Notation "x <- m ;; k" := (bind m (fun x => k))
  (at level 61, m at next level, right associativity) : flow_scope.
Notation "m ;; k" := (bind m (fun _ => k))
  (at level 61, right associativity) : flow_scope.
Local Open Scope flow_scope.

(** ** What the binding is linked against *)

(** The collaborators whose code is elsewhere: V8's JSON parser and number
    grammar, the scheduler's blocking entry points, the value of
    [ConstructorType::CREATE] (declared in zone-wrap.h) and what the
    unchecked [v8::Local<v8::Array>::Cast] of a value that is not an array
    makes [V8ArrayToVector] read. *)
Record Host : Type := {
  JSON_Parse : string -> option Value;
  numeric : string -> Z;
  CREATE : N;
  cast_non_array : Value -> list string;
  scheduler_ExecuteSync : ZoneProxy -> ExecuteRequest -> ExecuteResponse;
  scheduler_BroadcastSync : ZoneProxy -> string -> NapaResponseCode
}.

(** [v8::FunctionCallbackInfo]: the arguments, whether the call is a
    construct call, and the receiver.  An index past the end reads as
    [undefined]. *)
Record FunctionCallbackInfo : Type := {
  Args : list Value;
  IsConstructCall : bool;
  This : Value
}.

Definition arg (args : FunctionCallbackInfo) (i : nat) : Value :=
  nth i (Args args) VUndefined.

Definition Length (args : FunctionCallbackInfo) : nat :=
  List.length (Args args).

(** ** Helpers of napa/v8-helpers.h *)

(** Modelled from the spec: [MakeV8String], [Utf8String] and
    [NAPA_STRING_REF_WITH_SIZE] of the napa headers, which are not among
    the sources: the V8 string with the given characters, the string
    conversion of a value with its characters read out, and the reference
    to those characters. *)
Definition MakeV8String (s : string) : Value := VString s.

Definition Utf8String (v : Value) : string := ToString v.

(** Modelled from the spec: [V8ObjectToMap<std::string>] of the napa
    headers, which is not among the sources: the pairs of the settings
    object in the order the object has them, each value converted to a
    string. *)
Definition V8ObjectToMap (obj : Object) : list (string * string) :=
  map (fun kv => (fst kv, ToString (snd kv))) obj.

Section Binding.

Variable host : Host.

(** Modelled from the spec: [V8ArrayToVector<Utf8String>] of the napa
    headers, which is not among the sources: each element converted to its
    string form, positions kept. *)
Definition V8ArrayToVector (v : Value) : list string :=
  match v with
  | VArray elems => map Utf8String elems
  | other => cast_non_array host other
  end.

(** [v8::JSON::Parse(isolate, text)]: the parsed value, or an empty
    [MaybeLocal] with a syntax error thrown in the isolate. *)
Definition JSON_Parse_in (text : string) (iso : Isolate)
  : option Value * Isolate :=
  let iso' := {| exception := exception iso;
                 json_calls := json_calls iso ++ [text] |} in
  match JSON_Parse host text with
  | Some v => (Some v, iso')
  | None => (None, ThrowException "SyntaxError" iso')
  end.

(** The scope of a [v8::TryCatch]: an exception thrown inside is caught
    and, not being rethrown, is gone when the scope ends. *)
Definition TryCatch {A : Type} (body : Isolate -> A * Isolate)
    (iso : Isolate) : A * Isolate :=
  let (a, iso') := body iso in
  (a, {| exception := exception iso; json_calls := json_calls iso' |}).

Definition FromMaybe (m : option Value) (default : Value) : Value :=
  match m with Some v => v | None => default end.

(** ** [CreateResponseObject] *)

Definition CreateResponseObject (response : ExecuteResponse)
    (iso : Isolate) : Value * Isolate :=
  let responseObject : Object := [] in
  let responseObject :=
    CreateDataProperty responseObject "code"
      (Uint32_NewFromUnsigned (code response)) in
  let responseObject :=
    CreateDataProperty responseObject "errorMessage"
      (MakeV8String (errorMessage response)) in
  let (returnValue, iso') :=
    if String.eqb (returnValue response) "" then (MakeV8String "", iso)
    else
      (* If parse fails, return the string as is. *)
      let returnValue := MakeV8String (returnValue response) in
      TryCatch (fun i =>
                  let (parsed, i') := JSON_Parse_in (ToString returnValue) i in
                  (FromMaybe parsed returnValue, i')) iso in
  let responseObject :=
    CreateDataProperty responseObject "returnValue" returnValue in
  (VObject responseObject, iso').

(** The decoded response seen through its properties. *)
Definition property (key : string) (v : Value) : Value :=
  lookup key (ToObject v).

Definition keys (v : Value) : list string := map fst (ToObject v).

(** ** [CreateRequestAndExecute] *)

Definition CreateRequestAndExecute (obj : Object)
    (func : ExecuteRequest -> M unit) : M unit :=
  let request := empty_request in
  (* module property is optional in a request *)
  let request :=
    match Get obj "module" with
    | Some v =>
        let module' := Utf8String v in
        {| module := module'; function := function request;
           arguments := arguments request; timeout := timeout request |}
    | None => request
    end in
  (* function property is mandatory in a request *)
  match Get obj "function" with
  | None =>
      CHECK_ARG false
        "function property is missing in execution request object"
  | Some functionValue =>
      CHECK_ARG (IsString functionValue)
        "function property in execution request object must be a string" ;;
      let function' := ToString functionValue in
      let request :=
        {| module := module request; function := function';
           arguments := arguments request; timeout := timeout request |} in
      (* arguments are optional in a request *)
      let request :=
        match Get obj "arguments" with
        | Some v =>
            {| module := module request; function := function request;
               arguments := arguments request ++ V8ArrayToVector v;
               timeout := timeout request |}
        | None => request
        end in
      (* timeout argument is optional *)
      let request :=
        match Get obj "timeout" with
        | Some v =>
            {| module := module request; function := function request;
               arguments := arguments request;
               timeout := Uint32Value (numeric host) v |}
        | None => request
        end in
      (* Execute *)
      func request
  end.

(** ** Entry points of [napa::ZoneProxy] *)

Definition ZoneProxy_new (id config : string) : M ZoneProxy :=
  fun w => (Some {| zone_id := id |}, record_zone_call (ZCreate id config) w).

Definition ZoneProxy_Get (id : string) : M ZoneProxy :=
  fun w => (Some {| zone_id := id |}, record_zone_call (ZGet id) w).

Definition ZoneProxy_Broadcast (zone : ZoneProxy) (source : string)
    (onComplete : NodeAsyncHandler NapaResponseCode) : M unit :=
  modify (record_zone_call (ZBroadcast zone source onComplete)).

Definition ZoneProxy_BroadcastSync (zone : ZoneProxy) (source : string)
  : M NapaResponseCode :=
  fun w => (Some (scheduler_BroadcastSync host zone source),
            record_zone_call (ZBroadcastSync zone source) w).

Definition ZoneProxy_Execute (zone : ZoneProxy) (request : ExecuteRequest)
    (onComplete : NodeAsyncHandler ExecuteResponse) : M unit :=
  modify (record_zone_call (ZExecute zone request onComplete)).

Definition ZoneProxy_ExecuteSync (zone : ZoneProxy)
    (request : ExecuteRequest) : M ExecuteResponse :=
  fun w => (Some (scheduler_ExecuteSync host zone request),
            record_zone_call (ZExecuteSync zone request) w).

(** ** [ZoneWrap::NewCallback] *)

Definition NewCallback (args : FunctionCallbackInfo) : M unit :=
  JS_ASSERT (IsConstructCall args) "Only constructor call is allowed" ;;
  let constructorType := Uint32Value (numeric host) (arg args 0) in
  zoneProxy <-
    (if N.eqb constructorType (CREATE host) then
       CHECK_ARG (IsString (arg args 1))
         "first argument to createZone must be a string" ;;
       let zoneId := ToString (arg args 1) in
       ss <-
         (if Nat.ltb 2 (Length args) then
            CHECK_ARG (IsObject (arg args 2))
              "second argument to createZone must be an object" ;;
            let settingsObj := ToObject (arg args 2) in
            let settingsMap := V8ObjectToMap settingsObj in
            ret (fold_left
                   (fun ss kv => ss ++ " --" ++ fst kv ++ " " ++ snd kv)
                   settingsMap "")
          else ret "") ;;
       ZoneProxy_new zoneId ss
     else (* ConstructorType::GET *)
       CHECK_ARG (IsString (arg args 1))
         "first argument to getZone must be a string" ;;
       let zoneId := ToString (arg args 1) in
       ZoneProxy_Get zoneId) ;;
  let obj := {| _zoneProxy := zoneProxy |} in
  modify (Wrap (This args) obj) ;;
  modify (set_return_value (This args)).

(** ** [ZoneWrap::Broadcast] and [ZoneWrap::BroadcastSync] *)

Definition Broadcast_convert (responseCode : NapaResponseCode)
    (iso : Isolate) : list Value * Isolate :=
  let res : list Value := [] in
  let res := (res ++ [Uint32_NewFromUnsigned responseCode])%list in
  (res, iso).

Definition Broadcast (wrap : ZoneWrap) (args : FunctionCallbackInfo)
  : M unit :=
  CHECK_ARG (IsString (arg args 0))
    "first argument to zone.broadcast must be the javascript source" ;;
  CHECK_ARG (IsFunction (arg args 1))
    "second argument to zone.broadcast must be the callback" ;;
  let source := ToString (arg args 0) in
  let callback := arg args 1 in
  let handler := NodeAsyncHandler_New callback Broadcast_convert in
  ZoneProxy_Broadcast (_zoneProxy wrap) source handler.

Definition BroadcastSync (wrap : ZoneWrap) (args : FunctionCallbackInfo)
  : M unit :=
  CHECK_ARG (IsString (arg args 0))
    "first argument to zone.broadcastSync must be the javascript source" ;;
  let source := ToString (arg args 0) in
  responseCode <- ZoneProxy_BroadcastSync (_zoneProxy wrap) source ;;
  modify (set_return_value (Uint32_NewFromUnsigned responseCode)).

(** ** [ZoneWrap::Execute] and [ZoneWrap::ExecuteSync] *)

Definition Execute_convert (response : ExecuteResponse) (iso : Isolate)
  : list Value * Isolate :=
  let res : list Value := [] in
  let (obj, iso') := CreateResponseObject response iso in
  ((res ++ [obj])%list, iso').

Definition Execute (wrap : ZoneWrap) (args : FunctionCallbackInfo)
  : M unit :=
  CHECK_ARG (IsObject (arg args 0))
    "first argument to zone.execute must be the execution request object" ;;
  CHECK_ARG (IsFunction (arg args 1))
    "second argument to zone.execute must be the callback" ;;
  let callback := arg args 1 in
  let handler := NodeAsyncHandler_New callback Execute_convert in
  CreateRequestAndExecute (ToObject (arg args 0))
    (fun request => ZoneProxy_Execute (_zoneProxy wrap) request handler).

Definition ExecuteSync (wrap : ZoneWrap) (args : FunctionCallbackInfo)
  : M unit :=
  CHECK_ARG (IsObject (arg args 0))
    "first argument to zone.execute must be the execution request object" ;;
  CreateRequestAndExecute (ToObject (arg args 0))
    (fun request =>
       response <- ZoneProxy_ExecuteSync (_zoneProxy wrap) request ;;
       fun w =>
         let (obj, iso') := CreateResponseObject response (isolate w) in
         (Some tt, set_return_value obj (set_isolate iso' w))).

(** ** The completion bridge and the embedding thread *)

(** Modelled from the spec: [NodeAsyncHandler<T>::DispatchCallback]
    (node-async-handler.h is not among the sources).  Whatever thread calls
    it, the value is converted and the invocation of the callback with the
    converted arguments is posted to the queue of the embedding thread;
    nothing is run in place. *)
Definition DispatchCallback {T : Type} (handler : NodeAsyncHandler T)
    (caller : Thread) (value : T) (w : World) : World :=
  let (args, iso') := getArgs handler value (isolate w) in
  let w := set_isolate iso' w in
  set_task_queue
    (task_queue w ++
       [{| task_callback := callback handler; task_args := args |}]) w.

(** Modelled from the spec: the embedding runtime's thread takes the
    posted invocations in order and runs each one itself. *)
Definition run_task (t : Task) (w : World) : World :=
  record_invocation
    {| on_thread := EmbeddingThread; invoked := task_callback t;
       with_args := task_args t |} w.

Definition event_loop_turn (w : World) : World :=
  match task_queue w with
  | [] => w
  | t :: rest => run_task t (set_task_queue rest w)
  end.

Definition drain (w : World) : World :=
  fold_left (fun acc t => run_task t acc) (task_queue w)
    (set_task_queue [] w).

(** What can happen after the binding has returned: a worker thread of the
    scheduler invokes the completion closure of an outstanding call, or the
    embedding thread takes its next posted invocation. *)
Inductive Event : Type :=
| ExecuteCompleted (worker : Thread)
    (onComplete : NodeAsyncHandler ExecuteResponse)
    (response : ExecuteResponse)
| BroadcastCompleted (worker : Thread)
    (onComplete : NodeAsyncHandler NapaResponseCode)
    (responseCode : NapaResponseCode)
| EventLoopTurn.

Definition step (e : Event) (w : World) : World :=
  match e with
  | ExecuteCompleted worker h response => DispatchCallback h worker response w
  | BroadcastCompleted worker h c => DispatchCallback h worker c w
  | EventLoopTurn => event_loop_turn w
  end.

Definition run_events (trace : list Event) (w : World) : World :=
  fold_left (fun acc e => step e acc) trace w.

Definition is_completion (e : Event) : bool :=
  match e with EventLoopTurn => false | _ => true end.

(** The delivery contract of one dispatch: nothing runs in place, one
    invocation is posted behind what is already queued, and once the
    embedding thread has drained its queue the callback has run there with
    the given arguments, once more than without the dispatch. *)
Definition posted_then_delivered_once {T : Type}
    (handler : NodeAsyncHandler T) (worker : Thread) (value : T)
    (args : list Value) (w : World) : Prop :=
  let posted := DispatchCallback handler worker value w in
  callback_log posted = callback_log w /\
  task_queue posted =
    (task_queue w ++
       [{| task_callback := callback handler; task_args := args |}])%list /\
  callback_log (drain posted) =
    (callback_log (drain w) ++
       [{| on_thread := EmbeddingThread; invoked := callback handler;
           with_args := args |}])%list /\
  task_queue (drain posted) = [].

End Binding.

(** ** [ZoneWrap::NewInstance] *)

(** How a call that goes through [ToLocalChecked] ends: it returns, or the
    handle was empty and V8 stops the process with a fatal error. *)
Inductive Outcome : Type :=
| Completed (w : World)
| Fatal (w : World).

(** The loop [for (int i = 1; i < argc; ++i) argv.emplace_back(args[i-1])],
    entered at [i] with [count] rounds to go. *)
Fixpoint copy_args (args : FunctionCallbackInfo) (i count : nat)
  : list Value :=
  match count with
  | O => []
  | S rounds => arg args (i - 1) :: copy_args args (S i) rounds
  end.

(** [constructor->NewInstance(context, argc, argv)] on the persistent
    constructor, whose template [Init] made with [NewCallback] as its
    callback: V8 runs the callback as a construct call on a fresh object;
    the handle is empty when the callback threw, and [ToLocalChecked] is
    then fatal.  The callback returns its receiver, so the receiver is the
    instance. *)
Definition NewInstance (host : Host) (type : N)
    (args : FunctionCallbackInfo) (w : World) : Outcome :=
  let argc := Length args + 1 in
  let argv := Uint32_NewFromUnsigned type :: copy_args args 1 (argc - 1) in
  let fresh := VObject [] in
  match NewCallback host
          {| Args := argv; IsConstructCall := true; This := fresh |} w with
  | (Some _, w') => Completed (set_return_value fresh w')
  | (None, w') => Fatal w'
  end.

(** ** The request read from an object

    The request that [CreateRequestAndExecute] has built when it reaches
    its continuation: each of the four properties read and converted. *)
Definition request_of (host : Host) (obj : Object) : ExecuteRequest :=
  {| module := Utf8String (lookup "module" obj);
     function := ToString (lookup "function" obj);
     arguments := V8ArrayToVector host (lookup "arguments" obj);
     timeout := Uint32Value (numeric host) (lookup "timeout" obj) |}.

(** ** Validation before hand-off

    A method either returns early with an exception thrown and nothing else
    changed, or it returns normally having made one more call to the
    scheduler, with nothing thrown, nothing bound, nothing posted to the
    embedding thread and no callback run. *)
Definition throws_or_calls_once (method : M unit) (w : World) : Prop :=
  (exists message,
     method w = (None, set_isolate (ThrowException message (isolate w)) w))
  \/
  (exists call w',
     method w = (Some tt, w') /\
     zone_calls w' = (zone_calls w ++ [call])%list /\
     exception (isolate w') = exception (isolate w) /\
     wrapped w' = wrapped w /\
     task_queue w' = task_queue w /\
     callback_log w' = callback_log w).

(** ** The flattened configuration, in the words of the spec

    One [" --key value"] token per pair of the settings object,
    concatenated in the order of the pairs. *)
Definition token (kv : string * Value) : string :=
  " --" ++ fst kv ++ " " ++ ToString (snd kv).

Definition flattened (settings : Object) : string :=
  fold_right String.append "" (map token settings).

(** The two messages [CreateRequestAndExecute] has for the [function]
    property. *)
Definition function_missing : string :=
  "function property is missing in execution request object".

Definition function_not_string : string :=
  "function property in execution request object must be a string".

(** ** A stand-in host for the examples

    The scheduler stub of the spec's scenarios, and a reader for the part
    of the JSON grammar the examples use: the three literals and the
    integers. *)
Module Sample.

Definition digit_value (c : ascii) : option Z :=
  let n := nat_of_ascii c in
  if andb (Nat.leb 48 n) (Nat.leb n 57) then Some (Z.of_nat (n - 48))
  else None.

Fixpoint digits (s : string) (acc : Z) : option Z :=
  match s with
  | EmptyString => Some acc
  | String c rest =>
      match digit_value c with
      | Some d => digits rest (10 * acc + d)
      | None => None
      end
  end.

Definition natural (s : string) : option Z :=
  match s with
  | EmptyString => None
  | String "0" (String _ _) => None
  | _ => digits s 0
  end.

Definition parse (text : string) : option Value :=
  if String.eqb text "null" then Some VNull
  else if String.eqb text "true" then Some (VBool true)
  else if String.eqb text "false" then Some (VBool false)
  else
    match text with
    | String "-" rest => option_map (fun z => VNumber (- z)) (natural rest)
    | _ => option_map VNumber (natural text)
    end.

Definition host : Host :=
  {| JSON_Parse := parse;
     numeric := fun _ => 0%Z;
     CREATE := 1;
     cast_non_array := fun _ => [];
     scheduler_ExecuteSync :=
       fun _ _ => {| code := 0; errorMessage := ""; returnValue := "42" |};
     scheduler_BroadcastSync := fun _ _ => 0%N |}.

Definition zone : ZoneWrap := {| _zoneProxy := {| zone_id := "z1" |} |}.

Definition cb : Value := VFunction 0 "function (r) { }".

Definition call (l : list Value) : FunctionCallbackInfo :=
  {| Args := l; IsConstructCall := false; This := VObject [] |}.

Definition construct (l : list Value) : FunctionCallbackInfo :=
  {| Args := l; IsConstructCall := true; This := VObject [] |}.

End Sample.

(** * Properties *)

(** ** Conversions and property access *)

Example ToString_number : ToString (VNumber 42) = "42".
Proof. reflexivity. Qed.

Example ToString_array :
  ToString (VArray [VNumber 1; VNull; VString "a"]) = "1,,a".
Proof. reflexivity. Qed.

Example Uint32Value_wraps :
  Uint32Value (fun _ => 0%Z) (VNumber (-1)) = 4294967295%N.
Proof. reflexivity. Qed.

Example sample_parse_42 : Sample.parse "42" = Some (VNumber 42).
Proof. reflexivity. Qed.

Example sample_parse_garbage : Sample.parse "not json{{" = None.
Proof. reflexivity. Qed.

Lemma Uint32_NewFromUnsigned_in_range (n : N) :
  (n < 2 ^ 32)%N -> Uint32_NewFromUnsigned n = VNumber (Z.of_N n).
Proof.
  intros Hn. unfold Uint32_NewFromUnsigned, two32.
  rewrite Z.mod_small; [reflexivity | lia].
Qed.

Lemma lookup_absent (key : string) (obj : Object) :
  has_key key obj = false -> lookup key obj = VUndefined.
Proof.
  induction obj as [| [k v] rest IH]; simpl; [reflexivity |].
  destruct (String.eqb k key); simpl; [discriminate | exact IH].
Qed.

Lemma lookup_present (key : string) (obj : Object) :
  has_key key obj = true -> In (key, lookup key obj) obj.
Proof.
  induction obj as [| [k v] rest IH]; simpl; [discriminate |].
  destruct (String.eqb_spec k key) as [-> | Hne]; simpl.
  - intros _. now left.
  - intros H. right. exact (IH H).
Qed.

(** ** [CreateResponseObject] *)

Section ResponseCodec.

Variable host : Host.

(** The three properties in the order they are created, whatever the
    response holds. *)
Lemma CreateResponseObject_shape (response : ExecuteResponse)
    (iso : Isolate) :
  exists view,
    fst (CreateResponseObject host response iso) =
      VObject [("code", Uint32_NewFromUnsigned (code response));
               ("errorMessage", VString (errorMessage response));
               ("returnValue", view)].
Proof.
  unfold CreateResponseObject.
  destruct (String.eqb (returnValue response) "").
  - eexists. reflexivity.
  - unfold TryCatch, JSON_Parse_in. simpl.
    destruct (JSON_Parse host (returnValue response)); eexists; reflexivity.
Qed.

(** The isolate is left with the exception it had. *)
Lemma CreateResponseObject_exception (response : ExecuteResponse)
    (iso : Isolate) :
  exception (snd (CreateResponseObject host response iso)) = exception iso.
Proof.
  unfold CreateResponseObject.
  destruct (String.eqb (returnValue response) ""); [reflexivity |].
  unfold TryCatch, JSON_Parse_in. simpl.
  destruct (JSON_Parse host (returnValue response)); reflexivity.
Qed.

(** C7: decoding passes [code] and [errorMessage] through verbatim: the
    [code] property is the response's unsigned 32-bit code as a number,
    never reinterpreted, and the [errorMessage] property is the response's
    message, whatever the return value holds and whatever the parser makes
    of it. *)
Theorem code_and_errorMessage_pass_through (response : ExecuteResponse)
    (iso : Isolate) :
  (code response < 2 ^ 32)%N ->
  property "code" (fst (CreateResponseObject host response iso)) =
    VNumber (Z.of_N (code response)) /\
  property "errorMessage" (fst (CreateResponseObject host response iso)) =
    VString (errorMessage response).
Proof.
  intros Hcode.
  destruct (CreateResponseObject_shape response iso) as [view ->].
  rewrite <- (Uint32_NewFromUnsigned_in_range _ Hcode).
  split; reflexivity.
Qed.

(** C9: a decoded execute response is an object with exactly the three
    properties [code], [errorMessage] and [returnValue]; nothing else, and
    no transport context, is attached to it. *)
Theorem response_object_has_three_properties (response : ExecuteResponse)
    (iso : Isolate) :
  keys (fst (CreateResponseObject host response iso)) =
    ["code"; "errorMessage"; "returnValue"] /\
  exists c e r,
    fst (CreateResponseObject host response iso) =
      VObject [("code", c); ("errorMessage", e); ("returnValue", r)].
Proof.
  destruct (CreateResponseObject_shape response iso) as [view E].
  rewrite E. split; [reflexivity |].
  do 3 eexists. reflexivity.
Qed.

(** C4: when [returnValue] is the empty string the return-value view is
    the empty string and the JSON parser is not invoked: the record of
    texts handed to it is what it was. *)
Theorem empty_returnValue_is_not_parsed (response : ExecuteResponse)
    (iso : Isolate) :
  returnValue response = "" ->
  property "returnValue" (fst (CreateResponseObject host response iso)) =
    VString "" /\
  json_calls (snd (CreateResponseObject host response iso)) =
    json_calls iso.
Proof.
  intros Hempty. unfold CreateResponseObject.
  rewrite Hempty. simpl. split; reflexivity.
Qed.

(** C3: when [returnValue] is not empty, the return-value view is the
    value the JSON parser reads from it when the parse succeeds and the raw
    string unchanged when the parse fails; either way the parser saw that
    text once and the isolate is left without the parse error: nothing is
    raised to the caller. *)
Theorem returnValue_parsed_or_kept (response : ExecuteResponse)
    (iso : Isolate) :
  returnValue response <> "" ->
  (forall V, JSON_Parse host (returnValue response) = Some V ->
     property "returnValue" (fst (CreateResponseObject host response iso))
       = V) /\
  (JSON_Parse host (returnValue response) = None ->
     property "returnValue" (fst (CreateResponseObject host response iso))
       = VString (returnValue response)) /\
  json_calls (snd (CreateResponseObject host response iso)) =
    (json_calls iso ++ [returnValue response])%list /\
  exception (snd (CreateResponseObject host response iso)) = exception iso.
Proof.
  intros Hne. apply String.eqb_neq in Hne.
  unfold CreateResponseObject. rewrite Hne.
  unfold TryCatch, JSON_Parse_in. simpl.
  destruct (JSON_Parse host (returnValue response)) as [v |]; simpl.
  - repeat split; try reflexivity.
    + intros V HV. now inversion HV.
    + discriminate.
  - repeat split; try reflexivity. discriminate.
Qed.

End ResponseCodec.

Lemma code_and_errorMessage_pass_through_witness :
  let response := {| code := 1; errorMessage := "boom"; returnValue := "" |} in
  property "code"
    (fst (CreateResponseObject Sample.host response fresh_isolate)) =
    VNumber 1 /\
  property "errorMessage"
    (fst (CreateResponseObject Sample.host response fresh_isolate)) =
    VString "boom".
Proof.
  intros response.
  apply (code_and_errorMessage_pass_through Sample.host response
           fresh_isolate).
  reflexivity.
Defined.

Lemma empty_returnValue_is_not_parsed_witness :
  let response := {| code := 1; errorMessage := "boom"; returnValue := "" |} in
  property "returnValue"
    (fst (CreateResponseObject Sample.host response fresh_isolate)) =
    VString "" /\
  json_calls (snd (CreateResponseObject Sample.host response fresh_isolate))
    = [].
Proof.
  intros response.
  apply (empty_returnValue_is_not_parsed Sample.host response fresh_isolate).
  reflexivity.
Defined.

Lemma returnValue_parsed_or_kept_witness :
  property "returnValue"
    (fst (CreateResponseObject Sample.host
            {| code := 0; errorMessage := ""; returnValue := "42" |}
            fresh_isolate)) = VNumber 42 /\
  property "returnValue"
    (fst (CreateResponseObject Sample.host
            {| code := 0; errorMessage := ""; returnValue := "not json{{" |}
            fresh_isolate)) = VString "not json{{".
Proof.
  split.
  - refine (proj1 (returnValue_parsed_or_kept Sample.host
                     {| code := 0; errorMessage := ""; returnValue := "42" |}
                     fresh_isolate _) (VNumber 42) _).
    + simpl. discriminate.
    + reflexivity.
  - refine (proj1 (proj2 (returnValue_parsed_or_kept Sample.host
                     {| code := 0; errorMessage := "";
                        returnValue := "not json{{" |}
                     fresh_isolate _)) _).
    + simpl. discriminate.
    + reflexivity.
Defined.

(** ** [CreateRequestAndExecute] *)

Lemma append_assoc (a b c : string) : (a ++ b) ++ c = a ++ (b ++ c).
Proof. induction a as [| x a IH]; simpl; [reflexivity | now rewrite IH]. Qed.

Lemma append_empty_r (a : string) : a ++ "" = a.
Proof. induction a as [| x a IH]; simpl; [reflexivity | now rewrite IH]. Qed.

Section RequestCodec.

Variable host : Host.

(** What the code builds from an object whose [function] is a string:
    every one of the three optional reads yields a value, [undefined] for a
    key the object does not have, and that value is converted. *)
Lemma CreateRequestAndExecute_builds (obj : Object) (F : string)
    (func : ExecuteRequest -> M unit) (w : World) :
  lookup "function" obj = VString F ->
  CreateRequestAndExecute host obj func w =
    func {| module := Utf8String (lookup "module" obj);
            function := F;
            arguments := V8ArrayToVector host (lookup "arguments" obj);
            timeout := Uint32Value (numeric host) (lookup "timeout" obj) |}
      w.
Proof.
  intros HF. unfold CreateRequestAndExecute, Get. rewrite HF.
  unfold CHECK_ARG, JS_ASSERT, bind. simpl. reflexivity.
Qed.

Lemma CreateRequestAndExecute_rejects (obj : Object)
    (func : ExecuteRequest -> M unit) (w : World) :
  IsString (lookup "function" obj) = false ->
  CreateRequestAndExecute host obj func w =
    (None, set_isolate (ThrowException function_not_string (isolate w)) w).
Proof.
  intros HF. unfold CreateRequestAndExecute, Get.
  unfold CHECK_ARG, JS_ASSERT, bind. rewrite HF. reflexivity.
Qed.

(** C2, as the code has it: when the [function] key is absent or its value
    is not a string, request building stops with an error thrown in the
    isolate before the continuation is reached, so [execute] and
    [executeSync] return with that error pending and nothing handed to the
    scheduler.  The message is one of the two the code has for the
    property; for a key that is present with a value that is not a string
    it is "function property in execution request object must be a
    string". *)
Theorem function_property_is_checked_before_the_scheduler (obj : Object) :
  has_key "function" obj = false \/
  IsString (lookup "function" obj) = false ->
  exists message,
    (message = function_missing \/ message = function_not_string) /\
    (has_key "function" obj = true -> message = function_not_string) /\
    (forall func w,
       CreateRequestAndExecute host obj func w =
         (None, set_isolate (ThrowException message (isolate w)) w)) /\
    (forall wrap args w,
       IsObject (arg args 0) = true -> ToObject (arg args 0) = obj ->
       ExecuteSync host wrap args w =
         (None, set_isolate (ThrowException message (isolate w)) w)) /\
    (forall wrap args w,
       IsObject (arg args 0) = true -> ToObject (arg args 0) = obj ->
       IsFunction (arg args 1) = true ->
       Execute host wrap args w =
         (None, set_isolate (ThrowException message (isolate w)) w)) /\
    (forall w,
       zone_calls (set_isolate (ThrowException message (isolate w)) w) =
         zone_calls w /\
       exception
         (isolate (set_isolate (ThrowException message (isolate w)) w)) =
         Some message).
Proof.
  intros Hbad.
  assert (Hstr : IsString (lookup "function" obj) = false).
  { destruct Hbad as [Habsent | Hns]; [| exact Hns].
    now rewrite (lookup_absent _ _ Habsent). }
  exists function_not_string.
  split; [now right |]. split; [reflexivity |].
  split; [intros; now apply CreateRequestAndExecute_rejects |].
  split; [| split].
  - intros wrap args w Hobj Heq. unfold ExecuteSync.
    unfold CHECK_ARG, JS_ASSERT, bind at 1. rewrite Hobj, Heq.
    now apply CreateRequestAndExecute_rejects.
  - intros wrap args w Hobj Heq Hfun. unfold Execute.
    unfold CHECK_ARG, JS_ASSERT, bind at 1. rewrite Hobj.
    unfold bind at 1. rewrite Hfun, Heq.
    now apply CreateRequestAndExecute_rejects.
  - intros w. split; reflexivity.
Qed.

(** C6 at the input [{function: "foo"}]: the object has no [module] key,
    yet the read of [module] yields [undefined] and not an empty handle, so
    the branch that sets the module is taken and the request carries the
    string conversion of [undefined]; the arguments are whatever the cast
    of [undefined] to an array reads; the timeout is 0. *)
Theorem absent_module_is_not_left_empty
    (func : ExecuteRequest -> M unit) (w : World) :
  CreateRequestAndExecute host [("function", VString "foo")] func w =
    func {| module := "undefined";
            function := "foo";
            arguments := cast_non_array host VUndefined;
            timeout := 0 |} w.
Proof.
  rewrite (CreateRequestAndExecute_builds _ "foo"); reflexivity.
Qed.

End RequestCodec.

Lemma function_property_is_checked_before_the_scheduler_witness :
  exists message,
    (message = function_missing \/ message = function_not_string) /\
    ExecuteSync Sample.host Sample.zone (Sample.call [VObject []])
      fresh_world =
      (None,
       set_isolate (ThrowException message (isolate fresh_world))
         fresh_world).
Proof.
  destruct (function_property_is_checked_before_the_scheduler Sample.host
              [] (or_introl eq_refl))
    as (message & Hmsg & _ & _ & Hsync & _).
  exists message. split; [exact Hmsg |].
  apply Hsync; reflexivity.
Defined.

(** C2 as the spec words it fails: a [function] that is the number 42 is
    refused with the code's own message, which is not the one the spec
    gives. *)
Lemma function_error_message_is_not_the_specified_one :
  exception
    (isolate
       (run (ExecuteSync Sample.host Sample.zone
               (Sample.call [VObject [("function", VNumber 42)]]))
          fresh_world)) =
    Some "function property in execution request object must be a string"
  /\
  exception
    (isolate
       (run (ExecuteSync Sample.host Sample.zone
               (Sample.call [VObject [("function", VNumber 42)]]))
          fresh_world)) <>
    Some "function property is missing or not a string".
Proof.
  split; [reflexivity |]. vm_compute. discriminate.
Qed.

(** ** [ZoneWrap::NewCallback] *)

(** The stream filled by the loop over the settings map holds what it held
    before, followed by the tokens of the pairs in their order. *)
Lemma settings_loop (settings : Object) (ss : string) :
  fold_left (fun ss kv => ss ++ " --" ++ fst kv ++ " " ++ snd kv)
    (V8ObjectToMap settings) ss = ss ++ flattened settings.
Proof.
  revert ss.
  induction settings as [| [k v] rest IH]; intros ss; simpl.
  - now rewrite append_empty_r.
  - rewrite IH. unfold flattened. cbn [map fold_right].
    rewrite <- append_assoc. reflexivity.
Qed.

Lemma flattened_app (s1 s2 : Object) :
  flattened (s1 ++ s2)%list = flattened s1 ++ flattened s2.
Proof.
  unfold flattened.
  induction s1 as [| kv rest IH]; [reflexivity |].
  cbn [app map fold_right]. rewrite IH.
  symmetry. apply append_assoc.
Qed.

Section Constructor.

Variable host : Host.

(** C5: creating a zone with a settings object hands the scheduler the
    concatenation of one [" --key value"] token per pair of the object, in
    the order of the pairs; pairs with the same key each give a token. *)
Theorem settings_are_flattened_in_order (ctor : Value) (id : string)
    (settings : Object) (more : list Value) (this : Value) (w : World) :
  Uint32Value (numeric host) ctor = CREATE host ->
  NewCallback host
    {| Args := ctor :: VString id :: VObject settings :: more;
       IsConstructCall := true; This := this |} w =
    (Some tt,
     set_return_value this
       (Wrap this {| _zoneProxy := {| zone_id := id |} |}
          (record_zone_call (ZCreate id (flattened settings)) w))) /\
  flattened settings = fold_right String.append "" (map token settings) /\
  List.length (map token settings) = List.length settings /\
  (forall s1 s2, settings = (s1 ++ s2)%list ->
     flattened settings = flattened s1 ++ flattened s2).
Proof.
  intros Hctor. split; [| split; [reflexivity | split]].
  - unfold NewCallback, CHECK_ARG, JS_ASSERT, bind, arg, Length.
    cbn [Args IsConstructCall This nth List.length Nat.ltb Nat.leb
         IsString IsObject ToObject ToString].
    rewrite Hctor, N.eqb_refl.
    unfold ret, ZoneProxy_new, modify.
    rewrite (settings_loop settings ""). reflexivity.
  - apply length_map.
  - intros s1 s2 ->. apply flattened_app.
Qed.

(** C8: called as a plain function, the constructor callback throws "Only
    constructor call is allowed" and returns at once: the scheduler is not
    asked for a zone, nothing is wrapped and no object is returned. *)
Theorem plain_call_of_constructor_is_refused (args : FunctionCallbackInfo)
    (w : World) :
  IsConstructCall args = false ->
  NewCallback host args w =
    (None,
     set_isolate
       (ThrowException "Only constructor call is allowed" (isolate w)) w) /\
  exception (isolate (run (NewCallback host args) w)) =
    Some "Only constructor call is allowed" /\
  zone_calls (run (NewCallback host args) w) = zone_calls w /\
  wrapped (run (NewCallback host args) w) = wrapped w /\
  return_value (run (NewCallback host args) w) = return_value w.
Proof.
  intros Hplain.
  assert (E : NewCallback host args w =
              (None,
               set_isolate
                 (ThrowException "Only constructor call is allowed"
                    (isolate w)) w)).
  { unfold NewCallback, JS_ASSERT, bind at 1. now rewrite Hplain. }
  unfold run. rewrite E. repeat split.
Qed.

End Constructor.

Lemma settings_are_flattened_in_order_witness :
  zone_calls
    (run (NewCallback Sample.host
            (Sample.construct
               [VNumber 1; VString "z1";
                VObject [("workers", VString "4")]]))
       fresh_world) = [ZCreate "z1" " --workers 4"].
Proof.
  unfold run, Sample.construct.
  rewrite (proj1 (settings_are_flattened_in_order Sample.host (VNumber 1)
                    "z1" [("workers", VString "4")] [] (VObject [])
                    fresh_world eq_refl)).
  reflexivity.
Defined.

Lemma plain_call_of_constructor_is_refused_witness :
  exception
    (isolate
       (run (NewCallback Sample.host
               (Sample.call [VNumber 1; VString "z1"])) fresh_world)) =
    Some "Only constructor call is allowed" /\
  zone_calls
    (run (NewCallback Sample.host
            (Sample.call [VNumber 1; VString "z1"])) fresh_world) = [].
Proof.
  destruct (plain_call_of_constructor_is_refused Sample.host
              (Sample.call [VNumber 1; VString "z1"]) fresh_world eq_refl)
    as (_ & Hexc & Hcalls & _).
  split; [exact Hexc | exact Hcalls].
Defined.

Example duplicate_keys_are_kept :
  flattened [("a", VString "1"); ("a", VString "2")] = " --a 1 --a 2".
Proof. reflexivity. Qed.

(** ** The completion bridge *)

Lemma run_tasks_log (q : list Task) (w : World) :
  callback_log (fold_left (fun acc t => run_task t acc) q w) =
    (callback_log w ++
       map (fun t => {| on_thread := EmbeddingThread;
                        invoked := task_callback t;
                        with_args := task_args t |}) q)%list.
Proof.
  revert w. induction q as [| t q IH]; intros w; simpl.
  - now rewrite app_nil_r.
  - rewrite IH. simpl. now rewrite <- app_assoc.
Qed.

Lemma run_tasks_queue (q : list Task) (w : World) :
  task_queue (fold_left (fun acc t => run_task t acc) q w) = task_queue w.
Proof.
  revert w. induction q as [| t q IH]; intros w; simpl; [reflexivity |].
  now rewrite IH.
Qed.

Lemma drain_log (w : World) :
  callback_log (drain w) =
    (callback_log w ++
       map (fun t => {| on_thread := EmbeddingThread;
                        invoked := task_callback t;
                        with_args := task_args t |}) (task_queue w))%list.
Proof. unfold drain. now rewrite run_tasks_log. Qed.

Lemma drain_queue (w : World) : task_queue (drain w) = [].
Proof. unfold drain. now rewrite run_tasks_queue. Qed.

Lemma DispatchCallback_log {T : Type} (handler : NodeAsyncHandler T)
    (worker : Thread) (value : T) (w : World) :
  callback_log (DispatchCallback handler worker value w) = callback_log w.
Proof.
  unfold DispatchCallback.
  destruct (getArgs handler value (isolate w)); reflexivity.
Qed.

Lemma DispatchCallback_queue {T : Type} (handler : NodeAsyncHandler T)
    (worker : Thread) (value : T) (w : World) :
  task_queue (DispatchCallback handler worker value w) =
    (task_queue w ++
       [{| task_callback := callback handler;
           task_args := fst (getArgs handler value (isolate w)) |}])%list.
Proof.
  unfold DispatchCallback.
  destruct (getArgs handler value (isolate w)); reflexivity.
Qed.

(** One dispatch, from whichever thread: posted, not run in place, and run
    once by the embedding thread when it drains its queue. *)
Lemma DispatchCallback_delivers {T : Type} (handler : NodeAsyncHandler T)
    (worker : Thread) (value : T) (w : World) :
  posted_then_delivered_once handler worker value
    (fst (getArgs handler value (isolate w))) w.
Proof.
  unfold posted_then_delivered_once.
  split; [apply DispatchCallback_log |].
  split; [apply DispatchCallback_queue |].
  split; [| apply drain_queue].
  rewrite !drain_log, DispatchCallback_log, DispatchCallback_queue.
  rewrite map_app, app_assoc. reflexivity.
Qed.

Lemma step_threads (e : Event) (w : World) :
  Forall (fun i => on_thread i = EmbeddingThread) (callback_log w) ->
  Forall (fun i => on_thread i = EmbeddingThread) (callback_log (step e w)).
Proof.
  intros Hw.
  destruct e as [worker h response | worker h c |]; simpl.
  - now rewrite DispatchCallback_log.
  - now rewrite DispatchCallback_log.
  - unfold event_loop_turn.
    destruct (task_queue w) as [| t rest]; [exact Hw |].
    simpl. apply Forall_app. split; [exact Hw |].
    constructor; [reflexivity | constructor].
Qed.

Lemma step_balance (e : Event) (w : World) :
  List.length (callback_log (step e w)) +
  List.length (task_queue (step e w)) =
  List.length (callback_log w) + List.length (task_queue w) +
  (if is_completion e then 1 else 0).
Proof.
  destruct e as [worker h response | worker h c |]; simpl.
  - rewrite DispatchCallback_log, DispatchCallback_queue, length_app.
    simpl. lia.
  - rewrite DispatchCallback_log, DispatchCallback_queue, length_app.
    simpl. lia.
  - unfold event_loop_turn.
    destruct (task_queue w) as [| t rest] eqn:Hq; simpl.
    + rewrite Hq. simpl. lia.
    + rewrite length_app. simpl. lia.
Qed.

(** However completions and turns of the event loop interleave, every
    callback that ran ran on the embedding thread. *)
Lemma run_events_threads (trace : list Event) (w : World) :
  Forall (fun i => on_thread i = EmbeddingThread) (callback_log w) ->
  Forall (fun i => on_thread i = EmbeddingThread)
    (callback_log (run_events trace w)).
Proof.
  revert w. induction trace as [| e trace IH]; intros w Hw; simpl.
  - exact Hw.
  - apply IH. now apply step_threads.
Qed.

(** Every completion of the trace is either still queued or has run:
    none is lost and none is run twice. *)
Lemma run_events_balance (trace : list Event) (w : World) :
  List.length (callback_log (run_events trace w)) +
  List.length (task_queue (run_events trace w)) =
  List.length (callback_log w) + List.length (task_queue w) +
  List.length (filter is_completion trace).
Proof.
  revert w. induction trace as [| e trace IH]; intros w; simpl.
  - lia.
  - rewrite IH, step_balance.
    destruct (is_completion e); simpl; lia.
Qed.

(** ** [execute] and [broadcast]: what is handed to the scheduler *)

Section Facade.

Variable host : Host.

Lemma Execute_convert_args (cb : Value) (response : ExecuteResponse)
    (iso : Isolate) :
  fst (getArgs (NodeAsyncHandler_New cb (Execute_convert host)) response iso)
    = [fst (CreateResponseObject host response iso)].
Proof.
  simpl. unfold Execute_convert.
  destruct (CreateResponseObject host response iso); reflexivity.
Qed.

(** A call of [execute] that goes through handed the scheduler one request
    and the closure over the handler of the caller's callback. *)
Lemma Execute_hands_off (wrap : ZoneWrap) (args : FunctionCallbackInfo)
    (w w' : World) :
  Execute host wrap args w = (Some tt, w') ->
  exists request,
    w' = record_zone_call
           (ZExecute (_zoneProxy wrap) request
              (NodeAsyncHandler_New (arg args 1) (Execute_convert host))) w.
Proof.
  unfold Execute, CHECK_ARG, JS_ASSERT, bind at 1.
  destruct (IsObject (arg args 0)); [| discriminate].
  unfold bind at 1.
  destruct (IsFunction (arg args 1)); [| discriminate].
  destruct (lookup "function" (ToObject (arg args 0))) eqn:HF;
    try (rewrite CreateRequestAndExecute_rejects by (now rewrite HF);
         discriminate).
  rewrite (CreateRequestAndExecute_builds host _ s) by exact HF.
  unfold ZoneProxy_Execute, modify. intros E. inversion E.
  eexists. reflexivity.
Qed.

Lemma Broadcast_hands_off (wrap : ZoneWrap) (args : FunctionCallbackInfo)
    (w : World) :
  IsString (arg args 0) = true -> IsFunction (arg args 1) = true ->
  Broadcast wrap args w =
    (Some tt,
     record_zone_call
       (ZBroadcast (_zoneProxy wrap) (ToString (arg args 0))
          (NodeAsyncHandler_New (arg args 1) Broadcast_convert)) w).
Proof.
  intros Hs Hf. unfold Broadcast, CHECK_ARG, JS_ASSERT, bind.
  rewrite Hs, Hf. reflexivity.
Qed.

Lemma Broadcast_checks (wrap : ZoneWrap) (args : FunctionCallbackInfo)
    (w w' : World) :
  Broadcast wrap args w = (Some tt, w') ->
  IsString (arg args 0) = true /\ IsFunction (arg args 1) = true.
Proof.
  unfold Broadcast, CHECK_ARG, JS_ASSERT, bind.
  destruct (IsString (arg args 0)); [| discriminate].
  destruct (IsFunction (arg args 1)); [| discriminate].
  now split.
Qed.

(** C1: an [execute] or [broadcast] call that goes through hands the
    scheduler a completion closure over the caller's callback.  Whenever
    that closure is invoked with a raw value, from whatever thread, the
    callback is not run in place: one invocation, with the converted value
    as arguments, is posted behind what the embedding thread already has
    queued, and when that thread drains its queue the callback has run on
    it, once, with those arguments.  However completions and turns of the
    event loop interleave, callbacks run on the embedding thread only, and
    each completion is either still queued or has run. *)
Theorem completion_is_posted_then_run_once_on_the_embedding_thread
    (wrap : ZoneWrap) (args : FunctionCallbackInfo) (w w' : World) :
  Execute host wrap args w = (Some tt, w') \/
  Broadcast wrap args w = (Some tt, w') ->
  (exists call,
     w' = record_zone_call call w /\
     match call with
     | ZExecute _ _ onComplete =>
         callback onComplete = arg args 1 /\
         forall worker response now,
           posted_then_delivered_once onComplete worker response
             [fst (CreateResponseObject host response (isolate now))] now
     | ZBroadcast _ _ onComplete =>
         callback onComplete = arg args 1 /\
         forall worker responseCode now,
           posted_then_delivered_once onComplete worker responseCode
             [Uint32_NewFromUnsigned responseCode] now
     | _ => False
     end) /\
  (forall trace start,
     Forall (fun i => on_thread i = EmbeddingThread) (callback_log start) ->
     Forall (fun i => on_thread i = EmbeddingThread)
       (callback_log (run_events trace start)) /\
     List.length (callback_log (run_events trace start)) +
     List.length (task_queue (run_events trace start)) =
       List.length (callback_log start) + List.length (task_queue start) +
       List.length (filter is_completion trace) /\
     task_queue (drain (run_events trace start)) = []).
Proof.
  intros Hcall. split.
  - destruct Hcall as [He | Hb].
    + destruct (Execute_hands_off _ _ _ _ He) as [request ->].
      eexists. split; [reflexivity |]. simpl. split; [reflexivity |].
      intros worker response now.
      rewrite <- (Execute_convert_args (arg args 1) response (isolate now)).
      apply DispatchCallback_delivers.
    + destruct (Broadcast_checks _ _ _ _ Hb) as [Hs Hf].
      rewrite (Broadcast_hands_off _ _ _ Hs Hf) in Hb. inversion Hb.
      eexists. split; [reflexivity |]. simpl. split; [reflexivity |].
      intros worker responseCode now.
      exact (DispatchCallback_delivers
               (NodeAsyncHandler_New (arg args 1) Broadcast_convert)
               worker responseCode now).
  - intros trace start Hstart.
    split; [now apply run_events_threads |].
    split; [apply run_events_balance | apply drain_queue].
Qed.

(** C10: the callback of a [broadcast] is handed one argument, the
    scheduler's response code as an unsigned 32-bit number, delivered as
    every completion is; [broadcastSync] returns the code the scheduler's
    blocking call gave, as that same number, after that one call. *)
Theorem broadcast_reports_the_response_code (wrap : ZoneWrap)
    (args : FunctionCallbackInfo) (w : World) :
  IsString (arg args 0) = true ->
  (BroadcastSync host wrap args w =
     (Some tt,
      set_return_value
        (Uint32_NewFromUnsigned
           (scheduler_BroadcastSync host (_zoneProxy wrap)
              (ToString (arg args 0))))
        (record_zone_call
           (ZBroadcastSync (_zoneProxy wrap) (ToString (arg args 0))) w)) /\
   ((scheduler_BroadcastSync host (_zoneProxy wrap) (ToString (arg args 0))
     < 2 ^ 32)%N ->
    return_value (run (BroadcastSync host wrap args) w) =
      VNumber
        (Z.of_N
           (scheduler_BroadcastSync host (_zoneProxy wrap)
              (ToString (arg args 0)))))) /\
  (IsFunction (arg args 1) = true ->
   exists onComplete,
     Broadcast wrap args w =
       (Some tt,
        record_zone_call
          (ZBroadcast (_zoneProxy wrap) (ToString (arg args 0)) onComplete)
          w) /\
     callback onComplete = arg args 1 /\
     forall worker responseCode now,
       (responseCode < 2 ^ 32)%N ->
       posted_then_delivered_once onComplete worker responseCode
         [VNumber (Z.of_N responseCode)] now).
Proof.
  intros Hs.
  assert (Esync : BroadcastSync host wrap args w =
     (Some tt,
      set_return_value
        (Uint32_NewFromUnsigned
           (scheduler_BroadcastSync host (_zoneProxy wrap)
              (ToString (arg args 0))))
        (record_zone_call
           (ZBroadcastSync (_zoneProxy wrap) (ToString (arg args 0))) w))).
  { unfold BroadcastSync, CHECK_ARG, JS_ASSERT, bind. rewrite Hs.
    reflexivity. }
  split; [split; [exact Esync |] |].
  - intros Hrange. unfold run. rewrite Esync. simpl.
    now apply Uint32_NewFromUnsigned_in_range.
  - intros Hf.
    exists (NodeAsyncHandler_New (arg args 1) Broadcast_convert).
    split; [now apply Broadcast_hands_off |].
    split; [reflexivity |].
    intros worker responseCode now Hrange.
    rewrite <- (Uint32_NewFromUnsigned_in_range _ Hrange).
    exact (DispatchCallback_delivers
             (NodeAsyncHandler_New (arg args 1) Broadcast_convert)
             worker responseCode now).
Qed.

End Facade.

Lemma completion_is_posted_then_run_once_on_the_embedding_thread_witness :
  let args := Sample.call [VObject [("function", VString "foo")]; Sample.cb] in
  let issued := run (Execute Sample.host Sample.zone args) fresh_world in
  let boom := {| code := 1; errorMessage := "boom"; returnValue := "" |} in
  exists call,
    zone_calls issued = [call] /\
    match call with
    | ZExecute _ _ onComplete =>
        callback_log
          (DispatchCallback onComplete (WorkerThread 7) boom issued) = [] /\
        callback_log
          (drain (DispatchCallback onComplete (WorkerThread 7) boom issued))
        = [{| on_thread := EmbeddingThread;
              invoked := Sample.cb;
              with_args :=
                [VObject [("code", VNumber 1);
                          ("errorMessage", VString "boom");
                          ("returnValue", VString "")]] |}]
    | _ => False
    end.
Proof.
  intros args issued boom.
  destruct (completion_is_posted_then_run_once_on_the_embedding_thread
              Sample.host Sample.zone args fresh_world issued
              (or_introl eq_refl))
    as [(call & Hissued & Hcall) _].
  exists call.
  destruct call as [| | zone source onComplete | | zone request onComplete |];
    try contradiction.
  { apply (f_equal zone_calls) in Hissued. discriminate Hissued. }
  rewrite Hissued. split; [reflexivity |].
  destruct Hcall as [Hcb Hdeliver].
  destruct (Hdeliver (WorkerThread 7) boom
              (record_zone_call (ZExecute zone request onComplete)
                 fresh_world))
    as (Hinline & _ & Hrun & _).
  split; [exact Hinline |].
  rewrite Hrun, Hcb. reflexivity.
Defined.

Lemma broadcast_reports_the_response_code_witness :
  let args := Sample.call [VString "var x = 1;"; Sample.cb] in
  return_value (run (BroadcastSync Sample.host Sample.zone args) fresh_world)
    = VNumber 0 /\
  exists onComplete,
    zone_calls (run (Broadcast Sample.zone args) fresh_world) =
      [ZBroadcast {| zone_id := "z1" |} "var x = 1;" onComplete] /\
    callback_log
      (drain (DispatchCallback onComplete (WorkerThread 3) 2%N fresh_world))
    = [{| on_thread := EmbeddingThread; invoked := Sample.cb;
          with_args := [VNumber 2] |}].
Proof.
  intros args.
  destruct (broadcast_reports_the_response_code Sample.host Sample.zone
              args fresh_world eq_refl) as [[_ Hsync] Hasync].
  split; [apply Hsync; reflexivity |].
  destruct (Hasync eq_refl) as (onComplete & Hcall & Hcb & Hdeliver).
  exists onComplete. unfold run. rewrite Hcall. split; [reflexivity |].
  destruct (Hdeliver (WorkerThread 3) 2%N fresh_world eq_refl)
    as (_ & _ & Hrun & _).
  rewrite Hrun, Hcb. reflexivity.
Defined.

(** ** The scenarios of the spec *)

Example executeSync_scenario :
  run (ExecuteSync Sample.host Sample.zone
         (Sample.call [VObject [("function", VString "foo");
                                ("module", VString "");
                                ("arguments", VArray []);
                                ("timeout", VNumber 0)]])) fresh_world =
  {| isolate := {| exception := None; json_calls := ["42"] |};
     zone_calls :=
       [ZExecuteSync {| zone_id := "z1" |}
          {| module := ""; function := "foo"; arguments := [];
             timeout := 0 |}];
     wrapped := [];
     return_value :=
       VObject [("code", VNumber 0); ("errorMessage", VString "");
                ("returnValue", VNumber 42)];
     task_queue := [];
     callback_log := [] |}.
Proof. reflexivity. Qed.

Example execute_arguments_keep_their_order :
  zone_calls
    (run (ExecuteSync Sample.host Sample.zone
            (Sample.call [VObject [("function", VString "f");
                                   ("arguments",
                                    VArray [VString "1"; VNumber 2;
                                            VString "three"])]]))
       fresh_world) =
  [ZExecuteSync {| zone_id := "z1" |}
     {| module := "undefined"; function := "f";
        arguments := ["1"; "2"; "three"]; timeout := 0 |}].
Proof. reflexivity. Qed.

Example getZone_asks_the_registry :
  zone_calls
    (run (NewCallback Sample.host
            (Sample.construct [VNumber 0; VString "z1"])) fresh_world) =
  [ZGet "z1"].
Proof. reflexivity. Qed.

(** * Further properties of the binding *)

(** ** [ZoneWrap::NewCallback]: the paths of the constructor *)

Lemma Uint32_round_trip (n : N) :
  (n < 2 ^ 32)%N ->
  forall numeric, Uint32Value numeric (Uint32_NewFromUnsigned n) = n.
Proof.
  intros Hn numeric. rewrite (Uint32_NewFromUnsigned_in_range _ Hn).
  simpl. unfold two32. rewrite Z.mod_small by lia. apply N2Z.id.
Qed.

Section ConstructorPaths.

Variable host : Host.

(** What a construct call does once the discriminator is read. *)
Lemma NewCallback_create (args : FunctionCallbackInfo) (w : World) :
  IsConstructCall args = true ->
  Uint32Value (numeric host) (arg args 0) = CREATE host ->
  IsString (arg args 1) = true ->
  (Nat.ltb 2 (Length args) = true -> IsObject (arg args 2) = true) ->
  NewCallback host args w =
    (Some tt,
     set_return_value (This args)
       (Wrap (This args)
          {| _zoneProxy := {| zone_id := ToString (arg args 1) |} |}
          (record_zone_call
             (ZCreate (ToString (arg args 1))
                (if Nat.ltb 2 (Length args)
                 then flattened (ToObject (arg args 2)) else ""))
             w))).
Proof.
  intros Hc Ht Hs Ho.
  unfold NewCallback, CHECK_ARG, JS_ASSERT, bind.
  rewrite Hc, Ht, N.eqb_refl, Hs.
  destruct (Nat.ltb 2 (Length args)).
  - rewrite (Ho eq_refl). unfold ret, ZoneProxy_new, modify.
    rewrite (settings_loop _ ""). reflexivity.
  - reflexivity.
Qed.

Lemma NewCallback_get (args : FunctionCallbackInfo) (w : World) :
  IsConstructCall args = true ->
  Uint32Value (numeric host) (arg args 0) <> CREATE host ->
  IsString (arg args 1) = true ->
  NewCallback host args w =
    (Some tt,
     set_return_value (This args)
       (Wrap (This args)
          {| _zoneProxy := {| zone_id := ToString (arg args 1) |} |}
          (record_zone_call (ZGet (ToString (arg args 1))) w))).
Proof.
  intros Hc Ht Hs. apply N.eqb_neq in Ht.
  unfold NewCallback, CHECK_ARG, JS_ASSERT, bind.
  rewrite Hc, Ht, Hs. reflexivity.
Qed.

Lemma NewCallback_bad_id (args : FunctionCallbackInfo) (w : World) :
  IsConstructCall args = true ->
  IsString (arg args 1) = false ->
  NewCallback host args w =
    (None,
     set_isolate
       (ThrowException
          (if N.eqb (Uint32Value (numeric host) (arg args 0)) (CREATE host)
           then "first argument to createZone must be a string"
           else "first argument to getZone must be a string")
          (isolate w)) w).
Proof.
  intros Hc Hs.
  unfold NewCallback, CHECK_ARG, JS_ASSERT, bind.
  rewrite Hc, Hs.
  destruct (N.eqb (Uint32Value (numeric host) (arg args 0)) (CREATE host));
    reflexivity.
Qed.

Lemma NewCallback_bad_settings (args : FunctionCallbackInfo) (w : World) :
  IsConstructCall args = true ->
  Uint32Value (numeric host) (arg args 0) = CREATE host ->
  IsString (arg args 1) = true ->
  Nat.ltb 2 (Length args) = true ->
  IsObject (arg args 2) = false ->
  NewCallback host args w =
    (None,
     set_isolate
       (ThrowException "second argument to createZone must be an object"
          (isolate w)) w).
Proof.
  intros Hc Ht Hs Hlen Ho.
  unfold NewCallback, CHECK_ARG, JS_ASSERT, bind.
  rewrite Hc, Ht, N.eqb_refl, Hs, Hlen, Ho. reflexivity.
Qed.


(** X2: creating a zone with no settings argument, or with a settings
    object that has no property, hands the scheduler the empty
    configuration. *)
Theorem no_settings_give_the_empty_configuration (ctor : Value)
    (id : string) (this : Value) (w : World) :
  Uint32Value (numeric host) ctor = CREATE host ->
  NewCallback host
    {| Args := [ctor; VString id]; IsConstructCall := true; This := this |}
    w =
    (Some tt,
     set_return_value this
       (Wrap this {| _zoneProxy := {| zone_id := id |} |}
          (record_zone_call (ZCreate id "") w))) /\
  NewCallback host
    {| Args := [ctor; VString id; VObject []];
       IsConstructCall := true; This := this |} w =
    (Some tt,
     set_return_value this
       (Wrap this {| _zoneProxy := {| zone_id := id |} |}
          (record_zone_call (ZCreate id "") w))).
Proof.
  intros Ht. split.
  - rewrite NewCallback_create; try reflexivity; try exact Ht.
    discriminate.
  - rewrite NewCallback_create; try reflexivity; exact Ht.
Qed.

(** X3: a construct call whose id is not a string is refused before the
    scheduler is reached, with the message of the path the discriminator
    selects; nothing is created, fetched, bound or returned. *)
Theorem id_that_is_not_a_string_is_refused (args : FunctionCallbackInfo)
    (w : World) :
  IsConstructCall args = true ->
  IsString (arg args 1) = false ->
  NewCallback host args w =
    (None,
     set_isolate
       (ThrowException
          (if N.eqb (Uint32Value (numeric host) (arg args 0)) (CREATE host)
           then "first argument to createZone must be a string"
           else "first argument to getZone must be a string")
          (isolate w)) w).
Proof. apply NewCallback_bad_id. Qed.

(** X4: when a third argument is given to a create and it is not an object,
    the call is refused with "second argument to createZone must be an
    object" and no zone is created, although the id was accepted. *)
Theorem settings_that_are_not_an_object_are_refused
    (args : FunctionCallbackInfo) (w : World) :
  IsConstructCall args = true ->
  Uint32Value (numeric host) (arg args 0) = CREATE host ->
  IsString (arg args 1) = true ->
  2 < Length args ->
  IsObject (arg args 2) = false ->
  NewCallback host args w =
    (None,
     set_isolate
       (ThrowException "second argument to createZone must be an object"
          (isolate w)) w).
Proof.
  intros Hc Ht Hs Hlen Ho. apply Nat.ltb_lt in Hlen.
  now apply NewCallback_bad_settings.
Qed.

(** The three ways a construct call can end early. *)
Lemma NewCallback_construct_cases (args : FunctionCallbackInfo)
    (w : World) :
  IsConstructCall args = true ->
  (exists call,
     NewCallback host args w =
       (Some tt,
        set_return_value (This args)
          (Wrap (This args)
             {| _zoneProxy := {| zone_id := ToString (arg args 1) |} |}
             (record_zone_call call w))) /\
     (call = ZGet (ToString (arg args 1)) \/
      exists config, call = ZCreate (ToString (arg args 1)) config)) \/
  (exists message,
     NewCallback host args w =
       (None, set_isolate (ThrowException message (isolate w)) w) /\
     (message = "first argument to createZone must be a string" \/
      message = "first argument to getZone must be a string" \/
      message = "second argument to createZone must be an object")).
Proof.
  intros Hc.
  destruct (IsString (arg args 1)) eqn:Hs.
  2:{ right. eexists. split; [now apply NewCallback_bad_id |].
      destruct (N.eqb _ _); [now left | right; now left]. }
  destruct (N.eqb_spec (Uint32Value (numeric host) (arg args 0))
              (CREATE host)) as [Ht | Ht].
  - destruct (Nat.ltb 2 (Length args)) eqn:Hlen.
    + destruct (IsObject (arg args 2)) eqn:Ho.
      * left. eexists. split; [apply NewCallback_create; auto |].
        right; eexists; reflexivity.
      * right. eexists. split; [now apply NewCallback_bad_settings |].
        right; now right.
    + left. eexists. split.
      * apply NewCallback_create; auto. rewrite Hlen. discriminate.
      * right; eexists; reflexivity.
  - left. eexists. split; [now apply NewCallback_get |]. now left.
Qed.


End ConstructorPaths.

(** ** [ZoneWrap::NewInstance] *)

Lemma copy_args_from (args : FunctionCallbackInfo) (l pre : list Value) :
  Args args = (pre ++ l)%list ->
  copy_args args (S (List.length pre)) (List.length l) = l.
Proof.
  revert pre. induction l as [| x l IH]; intros pre Hargs; simpl.
  - reflexivity.
  - f_equal.
    + unfold arg. rewrite Nat.sub_0_r, Hargs. apply nth_middle.
    + specialize (IH (pre ++ [x])%list).
      rewrite length_app, Nat.add_1_r in IH. apply IH.
      now rewrite <- app_assoc.
Qed.

(** The vector handed to the constructor: the discriminator, then the
    caller's arguments in their order. *)
Lemma NewInstance_argv (args : FunctionCallbackInfo) :
  copy_args args 1 (Length args + 1 - 1) = Args args.
Proof.
  rewrite Nat.add_sub. exact (copy_args_from args (Args args) [] eq_refl).
Qed.

Section Instance.

Variable host : Host.

Lemma NewInstance_constructs (type : N) (args : FunctionCallbackInfo)
    (w : World) :
  NewInstance host type args w =
    match NewCallback host
            {| Args := Uint32_NewFromUnsigned type :: Args args;
               IsConstructCall := true; This := VObject [] |} w with
    | (Some _, w') => Completed (set_return_value (VObject []) w')
    | (None, w') => Fatal w'
    end.
Proof. unfold NewInstance. now rewrite NewInstance_argv. Qed.

(** X6: [NewInstance] reaches the constructor callback as a construct call
    on a fresh object with the discriminator in front of the caller's
    arguments, which keep their order; so the callback never refuses it
    with "Only constructor call is allowed".  It ends as the callback ends:
    with the fresh object as the return value, or fatally when the callback
    threw. *)
Theorem NewInstance_is_a_construct_call (type : N)
    (args : FunctionCallbackInfo) (w : World) :
  NewInstance host type args w =
    match NewCallback host
            {| Args := Uint32_NewFromUnsigned type :: Args args;
               IsConstructCall := true; This := VObject [] |} w with
    | (Some _, w') => Completed (set_return_value (VObject []) w')
    | (None, w') => Fatal w'
    end /\
  (forall w',
     NewInstance host type args w = Fatal w' ->
     exception (isolate w') <> Some "Only constructor call is allowed") /\
  (forall w',
     NewInstance host type args w = Completed w' ->
     return_value w' = VObject [] /\ exception (isolate w') =
                                       exception (isolate w)).
Proof.
  split; [apply NewInstance_constructs |].
  rewrite NewInstance_constructs.
  set (info := {| Args := Uint32_NewFromUnsigned type :: Args args;
                  IsConstructCall := true; This := VObject [] |}).
  destruct (NewCallback_construct_cases host info w eq_refl)
    as [(call & -> & _) | (message & -> & Hmsg)].
  - split; [discriminate |].
    intros w' E. inversion E. split; reflexivity.
  - split; [| discriminate].
    intros w' E. inversion E. simpl.
    destruct Hmsg as [-> | [-> | ->]]; discriminate.
Qed.


(** X8: an id that is not a string is fatal through [NewInstance]: the
    constructor callback throws its message and returns, the handle of the
    new instance is empty and [ToLocalChecked] stops the process; the
    scheduler was not reached and nothing was bound. *)
Theorem NewInstance_is_fatal_on_a_bad_id (type : N)
    (args : FunctionCallbackInfo) (w : World) :
  IsString (arg args 0) = false ->
  exists w',
    NewInstance host type args w = Fatal w' /\
    (exception (isolate w') =
       Some "first argument to createZone must be a string" \/
     exception (isolate w') =
       Some "first argument to getZone must be a string") /\
    zone_calls w' = zone_calls w /\
    wrapped w' = wrapped w.
Proof.
  intros Hs.
  rewrite NewInstance_constructs, NewCallback_bad_id;
    [| reflexivity | exact Hs].
  eexists. split; [reflexivity |]. split; [| split; reflexivity].
  simpl.
  destruct (N.eqb _ _); [now left | now right].
Qed.

End Instance.

(** ** The four methods: validation and hand-off *)

Section Methods.

Variable host : Host.

Lemma CreateRequestAndExecute_request_of (obj : Object)
    (func : ExecuteRequest -> M unit) (w : World) :
  IsString (lookup "function" obj) = true ->
  CreateRequestAndExecute host obj func w = func (request_of host obj) w.
Proof.
  intros Hs. destruct (lookup "function" obj) as [| | | | F | | |] eqn:HF;
    try discriminate.
  rewrite (CreateRequestAndExecute_builds host obj F func w HF).
  unfold request_of. now rewrite HF.
Qed.

Lemma ExecuteSync_runs (wrap : ZoneWrap) (args : FunctionCallbackInfo)
    (w : World) :
  IsObject (arg args 0) = true ->
  IsString (lookup "function" (ToObject (arg args 0))) = true ->
  ExecuteSync host wrap args w =
    let request := request_of host (ToObject (arg args 0)) in
    let response := scheduler_ExecuteSync host (_zoneProxy wrap) request in
    let decoded := CreateResponseObject host response (isolate w) in
    (Some tt,
     set_return_value (fst decoded)
       (set_isolate (snd decoded)
          (record_zone_call (ZExecuteSync (_zoneProxy wrap) request) w))).
Proof.
  intros Ho Hs. unfold ExecuteSync, CHECK_ARG, JS_ASSERT, bind at 1.
  rewrite Ho, CreateRequestAndExecute_request_of by exact Hs.
  unfold bind, ZoneProxy_ExecuteSync. simpl.
  destruct (CreateResponseObject host _ (isolate w)); reflexivity.
Qed.

Lemma Execute_runs (wrap : ZoneWrap) (args : FunctionCallbackInfo)
    (w : World) :
  IsObject (arg args 0) = true ->
  IsFunction (arg args 1) = true ->
  IsString (lookup "function" (ToObject (arg args 0))) = true ->
  Execute host wrap args w =
    (Some tt,
     record_zone_call
       (ZExecute (_zoneProxy wrap) (request_of host (ToObject (arg args 0)))
          (NodeAsyncHandler_New (arg args 1) (Execute_convert host))) w).
Proof.
  intros Ho Hf Hs. unfold Execute, CHECK_ARG, JS_ASSERT, bind at 1.
  rewrite Ho. unfold bind at 1.
  rewrite Hf, CreateRequestAndExecute_request_of by exact Hs.
  reflexivity.
Qed.

Lemma Execute_bad_callback (wrap : ZoneWrap) (args : FunctionCallbackInfo)
    (w : World) :
  IsObject (arg args 0) = true ->
  IsFunction (arg args 1) = false ->
  Execute host wrap args w =
    (None,
     set_isolate
       (ThrowException
          "second argument to zone.execute must be the callback"
          (isolate w)) w).
Proof.
  intros Ho Hf. unfold Execute, CHECK_ARG, JS_ASSERT, bind at 1.
  rewrite Ho. unfold bind at 1. now rewrite Hf.
Qed.

Lemma Execute_bad_request_object (wrap : ZoneWrap)
    (args : FunctionCallbackInfo) (w : World) :
  IsObject (arg args 0) = false ->
  Execute host wrap args w =
    (None,
     set_isolate
       (ThrowException
          "first argument to zone.execute must be the execution request object"
          (isolate w)) w).
Proof.
  intros Ho. unfold Execute, CHECK_ARG, JS_ASSERT, bind at 1.
  now rewrite Ho.
Qed.

Lemma ExecuteSync_bad_request_object (wrap : ZoneWrap)
    (args : FunctionCallbackInfo) (w : World) :
  IsObject (arg args 0) = false ->
  ExecuteSync host wrap args w =
    (None,
     set_isolate
       (ThrowException
          "first argument to zone.execute must be the execution request object"
          (isolate w)) w).
Proof.
  intros Ho. unfold ExecuteSync, CHECK_ARG, JS_ASSERT, bind at 1.
  now rewrite Ho.
Qed.

Lemma Broadcast_bad_source (wrap : ZoneWrap) (args : FunctionCallbackInfo)
    (w : World) :
  IsString (arg args 0) = false ->
  Broadcast wrap args w =
    (None,
     set_isolate
       (ThrowException
          "first argument to zone.broadcast must be the javascript source"
          (isolate w)) w).
Proof.
  intros Hs. unfold Broadcast, CHECK_ARG, JS_ASSERT, bind at 1.
  now rewrite Hs.
Qed.

Lemma Broadcast_bad_callback (wrap : ZoneWrap) (args : FunctionCallbackInfo)
    (w : World) :
  IsString (arg args 0) = true ->
  IsFunction (arg args 1) = false ->
  Broadcast wrap args w =
    (None,
     set_isolate
       (ThrowException
          "second argument to zone.broadcast must be the callback"
          (isolate w)) w).
Proof.
  intros Hs Hf. unfold Broadcast, CHECK_ARG, JS_ASSERT, bind.
  now rewrite Hs, Hf.
Qed.

Lemma BroadcastSync_bad_source (wrap : ZoneWrap)
    (args : FunctionCallbackInfo) (w : World) :
  IsString (arg args 0) = false ->
  BroadcastSync host wrap args w =
    (None,
     set_isolate
       (ThrowException
          "first argument to zone.broadcastSync must be the javascript source"
          (isolate w)) w).
Proof.
  intros Hs. unfold BroadcastSync, CHECK_ARG, JS_ASSERT, bind at 1.
  now rewrite Hs.
Qed.

Lemma BroadcastSync_runs (wrap : ZoneWrap) (args : FunctionCallbackInfo)
    (w : World) :
  IsString (arg args 0) = true ->
  BroadcastSync host wrap args w =
    (Some tt,
     set_return_value
       (Uint32_NewFromUnsigned
          (scheduler_BroadcastSync host (_zoneProxy wrap)
             (ToString (arg args 0))))
       (record_zone_call
          (ZBroadcastSync (_zoneProxy wrap) (ToString (arg args 0))) w)).
Proof.
  intros Hs. unfold BroadcastSync, CHECK_ARG, JS_ASSERT, bind.
  now rewrite Hs.
Qed.

End Methods.

Lemma Uint32Value_range (numeric : string -> Z) (v : Value) :
  (Uint32Value numeric v < 2 ^ 32)%N.
Proof.
  assert (Hmod : forall z, (Z.to_N (z mod two32) < 2 ^ 32)%N).
  { intros z. unfold two32.
    pose proof (Z.mod_pos_bound z (2 ^ 32) ltac:(lia)) as Hb.
    change (2 ^ 32)%N with (Z.to_N (2 ^ 32)).
    apply Z2N.inj_lt; lia. }
  destruct v as [| | [|] | z | s | elems | props | id text]; simpl;
    try apply Hmod; reflexivity.
Qed.

Section MethodProperties.

Variable host : Host.


(** X10: [execute] checks its two arguments in order and before it reads
    the request: a first argument that is not an object is refused with
    the request-object message, and after that a second argument that is
    not a function with the callback message, whatever the request object
    holds.  [executeSync] refuses a first argument that is not an object
    with the same text, which names [zone.execute]. *)
Theorem execute_checks_its_arguments_in_order (wrap : ZoneWrap)
    (args : FunctionCallbackInfo) (w : World) :
  IsObject (arg args 0) = false \/ IsFunction (arg args 1) = false ->
  Execute host wrap args w =
    (None,
     set_isolate
       (ThrowException
          (if IsObject (arg args 0)
           then "second argument to zone.execute must be the callback"
           else "first argument to zone.execute must be the execution request object")
          (isolate w)) w) /\
  (IsObject (arg args 0) = false ->
   ExecuteSync host wrap args w =
     (None,
      set_isolate
        (ThrowException
           "first argument to zone.execute must be the execution request object"
           (isolate w)) w)).
Proof.
  intros Hbad. split.
  - destruct (IsObject (arg args 0)) eqn:Ho.
    + destruct Hbad as [Hno | Hf]; [discriminate |].
      now apply Execute_bad_callback.
    + now apply Execute_bad_request_object.
  - intros Ho. now apply ExecuteSync_bad_request_object.
Qed.

(** X11: [broadcast] refuses a source that is not a string, and then a
    callback that is not a function, each with its own message;
    [broadcastSync] refuses a source that is not a string with its own
    message.  A call with no argument at all is such a call. *)
Theorem broadcast_checks_its_arguments_in_order (wrap : ZoneWrap)
    (args : FunctionCallbackInfo) (w : World) :
  IsString (arg args 0) = false \/ IsFunction (arg args 1) = false ->
  Broadcast wrap args w =
    (None,
     set_isolate
       (ThrowException
          (if IsString (arg args 0)
           then "second argument to zone.broadcast must be the callback"
           else "first argument to zone.broadcast must be the javascript source")
          (isolate w)) w) /\
  (IsString (arg args 0) = false ->
   BroadcastSync host wrap args w =
     (None,
      set_isolate
        (ThrowException
           "first argument to zone.broadcastSync must be the javascript source"
           (isolate w)) w)) /\
  (Args args = [] -> IsString (arg args 0) = false).
Proof.
  intros Hbad. split; [| split].
  - destruct (IsString (arg args 0)) eqn:Hs.
    + destruct Hbad as [Hno | Hf]; [discriminate |].
      now apply Broadcast_bad_callback.
    + now apply Broadcast_bad_source.
  - intros Hs. now apply BroadcastSync_bad_source.
  - intros Hnil. unfold arg. now rewrite Hnil.
Qed.



End MethodProperties.

(** ** The request and the response, field by field *)

Section Codecs.

Variable host : Host.



(** X16: only the four properties [module], [function], [arguments] and
    [timeout] are read: two objects that agree on them are treated alike,
    whatever else they hold. *)
Theorem only_the_four_properties_are_read (obj obj' : Object) :
  lookup "module" obj = lookup "module" obj' ->
  lookup "function" obj = lookup "function" obj' ->
  lookup "arguments" obj = lookup "arguments" obj' ->
  lookup "timeout" obj = lookup "timeout" obj' ->
  forall func w,
    CreateRequestAndExecute host obj func w =
    CreateRequestAndExecute host obj' func w.
Proof.
  intros Hm Hf Ha Ht func w.
  unfold CreateRequestAndExecute, Get.
  now rewrite Hm, Hf, Ha, Ht.
Qed.



End Codecs.

(** ** The properties above at concrete calls *)


Lemma no_settings_give_the_empty_configuration_witness :
  zone_calls
    (run (NewCallback Sample.host
            (Sample.construct [VNumber 1; VString "z1"])) fresh_world) =
    [ZCreate "z1" ""].
Proof.
  unfold run, Sample.construct.
  rewrite (proj1 (no_settings_give_the_empty_configuration Sample.host
                    (VNumber 1) "z1" (VObject []) fresh_world eq_refl)).
  reflexivity.
Defined.

Lemma id_that_is_not_a_string_is_refused_witness :
  NewCallback Sample.host (Sample.construct [VNumber 0; VNumber 7])
    fresh_world =
    (None,
     set_isolate
       (ThrowException "first argument to getZone must be a string"
          fresh_isolate) fresh_world).
Proof.
  exact (id_that_is_not_a_string_is_refused Sample.host
           (Sample.construct [VNumber 0; VNumber 7]) fresh_world
           eq_refl eq_refl).
Defined.

Lemma settings_that_are_not_an_object_are_refused_witness :
  NewCallback Sample.host
    (Sample.construct [VNumber 1; VString "z1"; VString "--workers 4"])
    fresh_world =
    (None,
     set_isolate
       (ThrowException "second argument to createZone must be an object"
          fresh_isolate) fresh_world).
Proof.
  apply (settings_that_are_not_an_object_are_refused Sample.host
           (Sample.construct
              [VNumber 1; VString "z1"; VString "--workers 4"])
           fresh_world); try reflexivity.
  unfold Length. simpl. lia.
Defined.


Lemma NewInstance_is_fatal_on_a_bad_id_witness :
  exists w',
    NewInstance Sample.host 1 (Sample.call [VNumber 42]) fresh_world =
      Fatal w' /\
    zone_calls w' = [].
Proof.
  destruct (NewInstance_is_fatal_on_a_bad_id Sample.host 1
              (Sample.call [VNumber 42]) fresh_world eq_refl)
    as (w' & Hrun & _ & Hcalls & _).
  exists w'. split; [exact Hrun | exact Hcalls].
Defined.

Lemma execute_checks_its_arguments_in_order_witness :
  exception
    (isolate
       (run (Execute Sample.host Sample.zone
               (Sample.call [VObject []; VString "not a function"]))
          fresh_world)) =
    Some "second argument to zone.execute must be the callback".
Proof.
  unfold run.
  rewrite (proj1 (execute_checks_its_arguments_in_order Sample.host
                    Sample.zone
                    (Sample.call [VObject []; VString "not a function"])
                    fresh_world (or_intror eq_refl))).
  reflexivity.
Defined.

Lemma broadcast_checks_its_arguments_in_order_witness :
  exception (isolate (run (Broadcast Sample.zone (Sample.call []))
                        fresh_world)) =
    Some "first argument to zone.broadcast must be the javascript source".
Proof.
  unfold run.
  rewrite (proj1 (broadcast_checks_its_arguments_in_order Sample.host
                    Sample.zone (Sample.call []) fresh_world
                    (or_introl eq_refl))).
  reflexivity.
Defined.





Lemma only_the_four_properties_are_read_witness :
  CreateRequestAndExecute Sample.host
    [("transportContext", VObject []); ("function", VString "foo")]
    (fun request =>
       modify (record_zone_call (ZExecuteSync {| zone_id := "z1" |} request)))
    fresh_world =
  CreateRequestAndExecute Sample.host [("function", VString "foo")]
    (fun request =>
       modify (record_zone_call (ZExecuteSync {| zone_id := "z1" |} request)))
    fresh_world.
Proof.
  exact (only_the_four_properties_are_read Sample.host
           [("transportContext", VObject []); ("function", VString "foo")]
           [("function", VString "foo")] eq_refl eq_refl eq_refl eq_refl
           _ fresh_world).
Defined.


Lemma NewInstance_is_a_construct_call_witness :
  exists w',
    NewInstance Sample.host 0 (Sample.call [VNumber 1]) fresh_world =
      Fatal w' /\
    exception (isolate w') <> Some "Only constructor call is allowed".
Proof.
  eexists. split; [reflexivity |].
  exact (proj1 (proj2 (NewInstance_is_a_construct_call Sample.host 0
                         (Sample.call [VNumber 1]) fresh_world))
           _ eq_refl).
Defined.
